(** * Dust injector controller: servo gate + vibration motor

    A shallow embedding of [particle_injector_controller.ino] and the
    properties of its pulse cycle.

    The sketch is straight-line code around one counted loop.  Its only
    observable behaviour is the sequence of calls it makes into the Arduino
    runtime ([analogWrite], [Servo::write], [delay], [Serial.print] ...), so
    the embedding is a deterministic machine that emits a trace of such
    calls.  The timing constants of the sketch are gathered in a record so
    that the properties can be stated for every parameterisation and not only
    for the values compiled in. *)

From Stdlib Require Import ZArith String List Bool Lia.
Import ListNotations.
Open Scope Z_scope.

(** ** Machine integers of the target (AVR, as on the Uno the sketch names) *)

Module Avr.

(** [uint8_t]: 8 bits, [unsigned long]: 32 bits, [int]: 16 bits,
    two's complement. *)
Definition uint8 (z : Z) : Z := z mod 2 ^ 8.
Definition ulong (z : Z) : Z := z mod 2 ^ 32.
Definition int (z : Z) : Z := (z + 2 ^ 15) mod 2 ^ 16 - 2 ^ 15.

Definition is_uint8 (z : Z) : Prop := 0 <= z < 2 ^ 8.
Definition is_ulong (z : Z) : Prop := 0 <= z < 2 ^ 32.
Definition is_int (z : Z) : Prop := - 2 ^ 15 <= z < 2 ^ 15.

Definition INT_MAX : Z := 2 ^ 15 - 1.

End Avr.

(** ** Configuration constants *)

(** Pin assignments. *)
Definition SERVO_PIN : Z := 6.
Definition BUZZER_PIN : Z := 11.

(** The tunable constants of the sketch, under the names it gives them.
    [SERVO_OPEN_DEG], [SERVO_CLOSE_DEG] and [PULSE_CYCLES] are [int],
    [VIBE_PWM] is [uint8_t], the three durations are [unsigned long]. *)
Record CycleConfig : Type := mkCycleConfig {
  SERVO_OPEN_DEG  : Z;
  SERVO_CLOSE_DEG : Z;
  VIBE_PWM        : Z;
  VIBE_ON_MS      : Z;
  VIBE_OFF_MS     : Z;
  PULSE_CYCLES    : Z;
  REOPEN_LEAD_MS  : Z
}.

(** A constant definition [const T X = v;] converts the initialiser to the
    declared type; nothing is checked. *)
Definition configure (open_deg close_deg pwm on_ms off_ms cycles lead_ms : Z)
  : CycleConfig :=
  {| SERVO_OPEN_DEG  := Avr.int open_deg;
     SERVO_CLOSE_DEG := Avr.int close_deg;
     VIBE_PWM        := Avr.uint8 pwm;
     VIBE_ON_MS      := Avr.ulong on_ms;
     VIBE_OFF_MS     := Avr.ulong off_ms;
     PULSE_CYCLES    := Avr.int cycles;
     REOPEN_LEAD_MS  := Avr.ulong lead_ms |}.

(** The values compiled into the sketch. *)
Definition sketch : CycleConfig := configure 123 130 255 500 1500 1100 250.

(** Every field holds a value of its declared type. *)
Definition well_typed (cfg : CycleConfig) : Prop :=
  Avr.is_int (SERVO_OPEN_DEG cfg) /\
  Avr.is_int (SERVO_CLOSE_DEG cfg) /\
  Avr.is_uint8 (VIBE_PWM cfg) /\
  Avr.is_ulong (VIBE_ON_MS cfg) /\
  Avr.is_ulong (VIBE_OFF_MS cfg) /\
  Avr.is_int (PULSE_CYCLES cfg) /\
  Avr.is_ulong (REOPEN_LEAD_MS cfg).

(** A valid configuration: well typed, with a non-negative pulse count.
    (Durations are unsigned, hence non-negative by their type.) *)
Definition valid (cfg : CycleConfig) : Prop :=
  well_typed cfg /\ 0 <= PULSE_CYCLES cfg.

(** ** Derived timing *)

(** [closedHold] and [reopenWait] as computed in the loop body; the
    subtraction is the [unsigned long] one. *)
Definition closedHold (cfg : CycleConfig) : Z :=
  if VIBE_OFF_MS cfg >? REOPEN_LEAD_MS cfg
  then Avr.ulong (VIBE_OFF_MS cfg - REOPEN_LEAD_MS cfg)
  else 0.

Definition reopenWait (cfg : CycleConfig) : Z :=
  if VIBE_OFF_MS cfg >? REOPEN_LEAD_MS cfg
  then REOPEN_LEAD_MS cfg
  else VIBE_OFF_MS cfg.

(** ** Observable events *)

Inductive PinModeKind : Type := INPUT | OUTPUT.

(** One constructor per runtime call the sketch makes. *)
Inductive event : Type :=
| SerialBegin (baud : Z)
| ServoAttach (pin : Z)
| ServoWrite (deg : Z)
| PinMode (pin : Z) (mode : PinModeKind)
| AnalogWrite (pin : Z) (value : Z)
| Delay (ms : Z)
| SerialPrint (s : string)
| SerialPrintInt (n : Z)
| SerialPrintln (s : string)
| SerialPrintlnInt (n : Z).

Definition trace : Type := list event.

(** ** The sketch *)

(** [setup()]. *)
Definition setup (cfg : CycleConfig) : trace :=
  [ SerialBegin 9600;
    ServoAttach SERVO_PIN;
    ServoWrite (SERVO_OPEN_DEG cfg);
    PinMode BUZZER_PIN OUTPUT;
    AnalogWrite BUZZER_PIN 0;
    Delay 11000;
    SerialPrintln "Dust injector initialized. Beginning pulse sequence..."%string ].

(** One iteration of the [for] loop of [loop()], at loop counter [cycle]. *)
Definition pulse (cfg : CycleConfig) (cycle : Z) : trace :=
  [ SerialPrint "Pulse "%string;
    SerialPrintInt (Avr.int (cycle + 1));
    SerialPrint " / "%string;
    SerialPrintlnInt (PULSE_CYCLES cfg);
    AnalogWrite BUZZER_PIN (VIBE_PWM cfg);
    Delay (VIBE_ON_MS cfg);
    AnalogWrite BUZZER_PIN 0;
    ServoWrite (SERVO_CLOSE_DEG cfg);
    Delay (closedHold cfg);
    ServoWrite (SERVO_OPEN_DEG cfg);
    Delay (reopenWait cfg) ].

(** The statements between the [for] loop and the final [while (true)]. *)
Definition shutdown : trace :=
  [ AnalogWrite BUZZER_PIN 0;
    SerialPrintln "Pulse sequence complete."%string ].

(** Control points of the program [setup(); loop();].  [loop()] never
    returns: it ends in [while (true) {}], the control point [Halt]. *)
Inductive state : Type :=
| PowerOn                 (* before [setup()] *)
| ForTest (cycle : Z)     (* at [cycle < PULSE_CYCLES] *)
| ForBody (cycle : Z)     (* at the top of the loop body *)
| AfterFor                (* the loop has been left *)
| Halt.                   (* spinning in [while (true)] *)

(** Entering [loop()] runs [int cycle = 0]. *)
Definition loop_entry : state := ForTest 0.

(** One step of the program: the calls made and the next control point.
    [cycle++] is the 16-bit increment. *)
Definition step (cfg : CycleConfig) (s : state) : trace * state :=
  match s with
  | PowerOn => (setup cfg, loop_entry)
  | ForTest cycle =>
      if cycle <? PULSE_CYCLES cfg
      then ([], ForBody cycle)
      else ([], AfterFor)
  | ForBody cycle => (pulse cfg cycle, ForTest (Avr.int (cycle + 1)))
  | AfterFor => (shutdown, Halt)
  | Halt => ([], Halt)
  end.

(** [k] steps from [s]: everything emitted, and where control is. *)
Fixpoint exec (cfg : CycleConfig) (k : nat) (s : state) : trace * state :=
  match k with
  | O => ([], s)
  | S k' =>
      let (t, s') := step cfg s in
      let (t', s'') := exec cfg k' s' in
      (t ++ t', s'')
  end.

(** ** Reading a trace *)

(** The actuator commands: what goes to the vibration motor and the gate. *)
Definition is_command (e : event) : bool :=
  match e with
  | ServoWrite _ | AnalogWrite _ _ => true
  | _ => false
  end.

Definition commands (t : trace) : trace := filter is_command t.

(** The vibration intensity in force after [t], when it was [v0] before. *)
Definition vibration_after (v0 : option Z) (t : trace) : option Z :=
  fold_left
    (fun v e =>
       match e with
       | AnalogWrite pin value => if pin =? BUZZER_PIN then Some value else v
       | _ => v
       end) t v0.

(** The gate position last commanded after [t], when it was [g0] before. *)
Definition gate_after (g0 : option Z) (t : trace) : option Z :=
  fold_left
    (fun g e => match e with ServoWrite deg => Some deg | _ => g end) t g0.

(** The most recent vibration and gate commands of a trace, if any. *)
Definition last_vibration (t : trace) : option Z := vibration_after None t.
Definition last_gate (t : trace) : option Z := gate_after None t.

Definition event_eqb (a b : event) : bool :=
  match a, b with
  | ServoWrite x, ServoWrite y => x =? y
  | AnalogWrite p x, AnalogWrite q y => (p =? q) && (x =? y)
  | _, _ => false
  end.

(** How many times the command [c] occurs in [t]. *)
Definition count (c : event) (t : trace) : nat :=
  length (filter (event_eqb c) t).

(** The pulses of loop counters [0 .. n-1], in order. *)
Definition pulses (cfg : CycleConfig) (n : nat) : trace :=
  flat_map (fun i => pulse cfg (Z.of_nat i)) (seq 0 n).

(** The commands of one pulse. *)
Definition pulse_commands (cfg : CycleConfig) : trace :=
  [ AnalogWrite BUZZER_PIN (VIBE_PWM cfg);
    AnalogWrite BUZZER_PIN 0;
    ServoWrite (SERVO_CLOSE_DEG cfg);
    ServoWrite (SERVO_OPEN_DEG cfg) ].

(** Steps after which [loop()], entered at [loop_entry], is certainly
    spinning in [Halt]: a test and a body per pulse, the failing test and
    the shutdown. *)
Definition steps_of_loop (cfg : CycleConfig) : nat :=
  2 * Z.to_nat (PULSE_CYCLES cfg) + 2.

(** The same for the whole program, from [PowerOn]. *)
Definition steps_of_program (cfg : CycleConfig) : nat :=
  S (steps_of_loop cfg).

(** Scanning [t] from intensity [v0]: is [ok] true of the intensity in
    force at every gate command? *)
Fixpoint gate_moves_when (ok : option Z -> bool) (v0 : option Z) (t : trace)
  : bool :=
  match t with
  | [] => true
  | ServoWrite _ :: t' => ok v0 && gate_moves_when ok v0 t'
  | e :: t' => gate_moves_when ok (vibration_after v0 [e]) t'
  end.

(** The motor has been commanded off. *)
Definition is_off (v : option Z) : bool :=
  match v with Some value => value =? 0 | None => false end.

(** The motor has not been commanded on. *)
Definition not_on (v : option Z) : bool :=
  match v with Some value => value =? 0 | None => true end.



(** ** Time and order along a trace *)

(** Total time spent in [delay], in milliseconds. *)
Fixpoint elapsed (t : trace) : Z :=
  match t with
  | [] => 0
  | Delay ms :: t' => ms + elapsed t'
  | _ :: t' => elapsed t'
  end.

(** Time spent in [delay] while the motor is commanded to a non-zero
    intensity, the intensity in force at the start being [v0]. *)
Fixpoint vibrating_time (v0 : option Z) (t : trace) : Z :=
  match t with
  | [] => 0
  | Delay ms :: t' => (if not_on v0 then 0 else ms) + vibrating_time v0 t'
  | e :: t' => vibrating_time (vibration_after v0 [e]) t'
  end.

(** The gate was last commanded to [deg]. *)
Definition gate_at (deg : Z) (g : option Z) : bool :=
  match g with Some d => d =? deg | None => false end.

(** Time spent in [delay] while the gate is commanded to [deg], the last
    gate command at the start being [g0]. *)
Fixpoint gate_time (deg : Z) (g0 : option Z) (t : trace) : Z :=
  match t with
  | [] => 0
  | Delay ms :: t' => (if gate_at deg g0 then ms else 0) + gate_time deg g0 t'
  | e :: t' => gate_time deg (gate_after g0 [e]) t'
  end.

(** Scanning [t] from gate position [g0]: is [ok] true of the last gate
    command at every command that sets the motor to a non-zero intensity? *)
Fixpoint motor_starts_when (ok : option Z -> bool) (g0 : option Z) (t : trace)
  : bool :=
  match t with
  | [] => true
  | AnalogWrite _ value :: t' =>
      ((value =? 0) || ok g0) && motor_starts_when ok g0 t'
  | e :: t' => motor_starts_when ok (gate_after g0 [e]) t'
  end.

(** The pulse numbers and the totals of the progress messages, in order. *)
Definition printed_numbers (t : trace) : list Z :=
  flat_map (fun e => match e with SerialPrintInt n => [n] | _ => [] end) t.

Definition printed_totals (t : trace) : list Z :=
  flat_map (fun e => match e with SerialPrintlnInt n => [n] | _ => [] end) t.



(** What the program may pass to a call under [cfg]: the motor pin with
    intensity 0 or [VIBE_PWM]; one of the two gate angles; a delay that is
    the start-up delay, the on-period, or no longer than the off-period; a
    pulse number between 1 and the pulse count; the pulse count as total;
    the pins of the sketch. *)
Definition event_ok (cfg : CycleConfig) (e : event) : Prop :=
  match e with
  | SerialBegin baud => baud = 9600
  | ServoAttach pin => pin = SERVO_PIN
  | ServoWrite deg => deg = SERVO_OPEN_DEG cfg \/ deg = SERVO_CLOSE_DEG cfg
  | PinMode pin mode => pin = BUZZER_PIN /\ mode = OUTPUT
  | AnalogWrite pin value =>
      pin = BUZZER_PIN /\ (value = 0 \/ value = VIBE_PWM cfg)
  | Delay ms =>
      ms = 11000 \/ ms = VIBE_ON_MS cfg \/ 0 <= ms <= VIBE_OFF_MS cfg
  | SerialPrintInt n => 1 <= n <= PULSE_CYCLES cfg
  | SerialPrintlnInt n => n = PULSE_CYCLES cfg
  | SerialPrint _ | SerialPrintln _ => True
  end.

(** The loop counter at a control point is within its bounds. *)
Definition counter_ok (cfg : CycleConfig) (s : state) : Prop :=
  match s with
  | ForTest cycle => 0 <= cycle <= Z.max 0 (PULSE_CYCLES cfg)
  | ForBody cycle => 0 <= cycle < PULSE_CYCLES cfg
  | _ => True
  end.

(** ** Some parameterisations *)

(** Three pulses with the timing of the sketch. *)
Definition three_pulses : CycleConfig :=
  configure 123 130 255 500 1500 3 250.

(** The lead time exceeds the whole off-period. *)
Definition long_lead : CycleConfig :=
  configure 123 130 255 500 1500 3 2000.

(** No pulse at all, and a negative pulse count. *)
Definition no_pulse : CycleConfig :=
  configure 123 130 255 500 1500 0 250.



(** ** Sanity checks on the compiled-in values *)

Example sketch_fields :
  sketch = mkCycleConfig 123 130 255 500 1500 1100 250.
Proof. reflexivity. Qed.

Example sketch_timing : closedHold sketch = 1250 /\ reopenWait sketch = 250.
Proof. split; reflexivity. Qed.

(** The first pulse of a three-pulse run, as [loop()] emits it. *)
Example first_pulse :
  exec three_pulses 2 loop_entry =
  ([ SerialPrint "Pulse "%string; SerialPrintInt 1;
     SerialPrint " / "%string; SerialPrintlnInt 3;
     AnalogWrite 11 255; Delay 500;
     AnalogWrite 11 0;
     ServoWrite 130; Delay 1250;
     ServoWrite 123; Delay 250 ],
   ForTest 1).
Proof. reflexivity. Qed.

(** The sketch as compiled: 1100 pulses, then halted for good. *)
Example sketch_halts :
  snd (exec sketch (steps_of_program sketch) PowerOn) = Halt /\
  length (commands (fst (exec sketch (steps_of_program sketch) PowerOn)))
  = (2 + 4 * 1100 + 1)%nat.
Proof. split; vm_compute; reflexivity. Qed.

(** ** Integer conversions *)

Lemma uint8_is_uint8 z : Avr.is_uint8 (Avr.uint8 z).
Proof. unfold Avr.is_uint8, Avr.uint8. apply Z.mod_pos_bound. lia. Qed.

Lemma ulong_is_ulong z : Avr.is_ulong (Avr.ulong z).
Proof. unfold Avr.is_ulong, Avr.ulong. apply Z.mod_pos_bound. lia. Qed.

Lemma int_is_int z : Avr.is_int (Avr.int z).
Proof.
  unfold Avr.is_int, Avr.int.
  assert (0 <= (z + 2 ^ 15) mod 2 ^ 16 < 2 ^ 16) by (apply Z.mod_pos_bound; lia).
  lia.
Qed.

Lemma ulong_id z : Avr.is_ulong z -> Avr.ulong z = z.
Proof. unfold Avr.is_ulong, Avr.ulong. intros H. now apply Z.mod_small. Qed.

Lemma int_id z : Avr.is_int z -> Avr.int z = z.
Proof.
  unfold Avr.is_int, Avr.int. intros H.
  rewrite Z.mod_small; lia.
Qed.

Lemma configure_well_typed a b c d e f g : well_typed (configure a b c d e f g).
Proof.
  unfold well_typed, configure; cbn [SERVO_OPEN_DEG SERVO_CLOSE_DEG VIBE_PWM
    VIBE_ON_MS VIBE_OFF_MS PULSE_CYCLES REOPEN_LEAD_MS].
  repeat split;
    first [ apply int_is_int | apply uint8_is_uint8 | apply ulong_is_ulong ].
Qed.

Lemma sketch_valid : valid sketch.
Proof.
  split; [apply configure_well_typed | vm_compute; discriminate].
Qed.

(** ** Derived timing: the two branches *)

Section Timing.

Variable cfg : CycleConfig.
Hypothesis Htyped : well_typed cfg.

Let off := VIBE_OFF_MS cfg.
Let lead := REOPEN_LEAD_MS cfg.

Lemma off_is_ulong : Avr.is_ulong (VIBE_OFF_MS cfg).
Proof. apply Htyped. Qed.

Lemma lead_is_ulong : Avr.is_ulong (REOPEN_LEAD_MS cfg).
Proof. apply Htyped. Qed.

(** The guard holds: the difference is computed, and fits. *)
Lemma timing_held :
  lead < off -> closedHold cfg = off - lead /\ reopenWait cfg = lead.
Proof.
  intros Hlt. unfold closedHold, reopenWait. fold off lead.
  assert (Hg : (off >? lead) = true) by (apply Z.gtb_lt; exact Hlt).
  rewrite Hg. split; [|reflexivity].
  apply ulong_id. pose proof off_is_ulong as Ho. pose proof lead_is_ulong as Hl.
  unfold Avr.is_ulong in *. fold off in Ho. fold lead in Hl. lia.
Qed.

(** The guard fails: no subtraction takes place. *)
Lemma timing_clamped :
  off <= lead -> closedHold cfg = 0 /\ reopenWait cfg = off.
Proof.
  intros Hle. unfold closedHold, reopenWait. fold off lead.
  assert (Hg : (off >? lead) = false).
  { destruct (off >? lead) eqn:E; [apply Z.gtb_lt in E; lia | reflexivity]. }
  rewrite Hg. split; reflexivity.
Qed.

End Timing.

(** ** Running the machine *)

Lemma exec_app cfg a b s :
  exec cfg (a + b) s =
  let (t1, s1) := exec cfg a s in
  let (t2, s2) := exec cfg b s1 in
  (t1 ++ t2, s2).
Proof.
  revert s. induction a as [|a IH]; intros s; simpl.
  - destruct (exec cfg b s); reflexivity.
  - destruct (step cfg s) as [t s']. rewrite IH.
    destruct (exec cfg a s') as [t1 s1].
    destruct (exec cfg b s1) as [t2 s2].
    now rewrite app_assoc.
Qed.

(** Once halted, always halted, and silent. *)
Lemma exec_Halt cfg k : exec cfg k Halt = ([], Halt).
Proof. induction k as [|k IH]; simpl; [|rewrite IH]; reflexivity. Qed.

(** What has been emitted stays emitted. *)
Lemma exec_prefix cfg k j s :
  exists rest, fst (exec cfg (k + j) s) = fst (exec cfg k s) ++ rest.
Proof.
  rewrite exec_app. destruct (exec cfg k s) as [t1 s1].
  destruct (exec cfg j s1) as [t2 s2]. now exists t2.
Qed.

(** [m] passes through the loop, while the counter stays below the bound. *)
Lemma exec_for cfg m : forall c : nat,
  Z.of_nat (c + m) <= PULSE_CYCLES cfg ->
  PULSE_CYCLES cfg <= Avr.INT_MAX ->
  exec cfg (2 * m) (ForTest (Z.of_nat c)) =
  (flat_map (fun i => pulse cfg (Z.of_nat i)) (seq c m),
   ForTest (Z.of_nat (c + m))).
Proof.
  unfold Avr.INT_MAX.
  induction m as [|m IH]; intros c Hle Hmax.
  - simpl. now rewrite Nat.add_0_r.
  - replace (2 * S m)%nat with (S (S (2 * m))) by lia.
    cbn [exec step].
    assert (Hlt : (Z.of_nat c <? PULSE_CYCLES cfg) = true) by (apply Z.ltb_lt; lia).
    rewrite Hlt. cbn [step].
    assert (Hinc : Avr.int (Z.of_nat c + 1) = Z.of_nat (S c)).
    { rewrite int_id; [lia | unfold Avr.is_int; lia]. }
    rewrite Hinc, (IH (S c)) by lia.
    cbn [flat_map seq app]. f_equal. f_equal. lia.
Qed.

(** [loop()] from its entry: the pulses, the shutdown, then [Halt] forever. *)
Lemma exec_loop cfg j :
  well_typed cfg ->
  exec cfg (steps_of_loop cfg + j) loop_entry =
  (pulses cfg (Z.to_nat (PULSE_CYCLES cfg)) ++ shutdown, Halt).
Proof.
  intros Hty.
  assert (Hint : Avr.is_int (PULSE_CYCLES cfg)) by apply Hty.
  unfold Avr.is_int in Hint.
  unfold steps_of_loop, loop_entry, pulses.
  set (n := Z.to_nat (PULSE_CYCLES cfg)).
  replace (2 * n + 2 + j)%nat with (2 * n + S (S j))%nat by lia.
  rewrite exec_app.
  assert (Hfor : exec cfg (2 * n) (ForTest 0) =
                 (flat_map (fun i => pulse cfg (Z.of_nat i)) (seq 0 n),
                  ForTest (Z.of_nat n))).
  { destruct n as [|n'] eqn:En; [reflexivity|].
    apply (exec_for cfg (S n') 0%nat); unfold Avr.INT_MAX; lia. }
  rewrite Hfor. cbn [exec step].
  assert (Hge : (Z.of_nat n <? PULSE_CYCLES cfg) = false).
  { apply Z.ltb_ge. lia. }
  rewrite Hge. cbn [step]. rewrite exec_Halt. now rewrite app_nil_r.
Qed.

(** The whole program, from power-on. *)
Lemma exec_program cfg j :
  well_typed cfg ->
  exec cfg (steps_of_program cfg + j) PowerOn =
  (setup cfg ++ pulses cfg (Z.to_nat (PULSE_CYCLES cfg)) ++ shutdown, Halt).
Proof.
  intros Hty. unfold steps_of_program.
  change (S (steps_of_loop cfg) + j)%nat with (S (steps_of_loop cfg + j)).
  cbn [exec step]. now rewrite exec_loop.
Qed.

Lemma exec_from_PowerOn cfg k :
  fst (exec cfg (S k) PowerOn) = setup cfg ++ fst (exec cfg k loop_entry).
Proof.
  cbn [exec step]. now destruct (exec cfg k loop_entry).
Qed.

(** ** Reading the trace of a run *)

Lemma commands_app a b : commands (a ++ b) = commands a ++ commands b.
Proof. unfold commands. apply filter_app. Qed.

Lemma commands_pulse cfg c : commands (pulse cfg c) = pulse_commands cfg.
Proof. reflexivity. Qed.

Lemma commands_pulses cfg n :
  commands (pulses cfg n) = concat (repeat (pulse_commands cfg) n).
Proof.
  unfold pulses. generalize 0%nat as c.
  induction n as [|n IH]; intros c; [reflexivity|].
  cbn [seq flat_map repeat concat].
  now rewrite commands_app, commands_pulse, IH.
Qed.

Lemma count_app c a b : count c (a ++ b) = (count c a + count c b)%nat.
Proof. unfold count. now rewrite filter_app, length_app. Qed.

(** Each pulse contributes the same number of occurrences. *)
Lemma count_pulses c cfg m n :
  (forall i, count c (pulse cfg i) = m) ->
  count c (pulses cfg n) = (n * m)%nat.
Proof.
  intros Hm. unfold pulses. generalize 0%nat as i.
  induction n as [|n IH]; intros i; [reflexivity|].
  cbn [seq flat_map]. rewrite count_app, Hm, IH. lia.
Qed.

Lemma count_vibration_on cfg i :
  VIBE_PWM cfg <> 0 ->
  count (AnalogWrite BUZZER_PIN (VIBE_PWM cfg)) (pulse cfg i) = 1%nat.
Proof.
  intros Hpwm. unfold count, pulse. cbn [filter event_eqb].
  rewrite !Z.eqb_refl. apply Z.eqb_neq in Hpwm. rewrite Hpwm. reflexivity.
Qed.

Lemma count_gate_close cfg i :
  SERVO_CLOSE_DEG cfg <> SERVO_OPEN_DEG cfg ->
  count (ServoWrite (SERVO_CLOSE_DEG cfg)) (pulse cfg i) = 1%nat.
Proof.
  intros Hne. unfold count, pulse. cbn [filter event_eqb].
  rewrite Z.eqb_refl. apply Z.eqb_neq in Hne. rewrite Hne. reflexivity.
Qed.

Lemma count_gate_open cfg i :
  SERVO_CLOSE_DEG cfg <> SERVO_OPEN_DEG cfg ->
  count (ServoWrite (SERVO_OPEN_DEG cfg)) (pulse cfg i) = 1%nat.
Proof.
  intros Hne. unfold count, pulse. cbn [filter event_eqb].
  rewrite Z.eqb_refl.
  assert (H : (SERVO_OPEN_DEG cfg =? SERVO_CLOSE_DEG cfg) = false)
    by (apply Z.eqb_neq; congruence).
  rewrite H. reflexivity.
Qed.

Lemma vibration_after_app v a b :
  vibration_after v (a ++ b) = vibration_after (vibration_after v a) b.
Proof. unfold vibration_after. apply fold_left_app. Qed.

Lemma gate_after_app g a b :
  gate_after g (a ++ b) = gate_after (gate_after g a) b.
Proof. unfold gate_after. apply fold_left_app. Qed.

Lemma gate_after_pulses cfg n g :
  gate_after g (pulses cfg n) =
  match n with O => g | S _ => Some (SERVO_OPEN_DEG cfg) end.
Proof.
  unfold pulses. generalize 0%nat as c. revert g.
  induction n as [|n IH]; intros g c; [reflexivity|].
  cbn [seq flat_map]. rewrite gate_after_app, IH.
  destruct n; reflexivity.
Qed.

(** A gate command splits the scan: [ok] held of the intensity just before. *)
Lemma gate_moves_when_split ok pre : forall v d post,
  gate_moves_when ok v (pre ++ ServoWrite d :: post) = true ->
  ok (vibration_after v pre) = true.
Proof.
  induction pre as [|e pre IH]; intros v d post H.
  - cbn in H. now apply andb_true_iff in H.
  - destruct e; cbn [app gate_moves_when] in H;
      try (apply andb_true_iff in H; destruct H as [_ H]);
      apply IH in H; exact H.
Qed.

Lemma is_off_Some v : is_off v = true -> v = Some 0.
Proof.
  destruct v as [z|]; cbn; [|discriminate].
  intros H. apply Z.eqb_eq in H. now subst.
Qed.

Lemma not_on_Some v z : not_on v = true -> v = Some z -> z = 0.
Proof.
  intros H ->. cbn in H. now apply Z.eqb_eq.
Qed.

Lemma exec_S_fst cfg k s :
  fst (exec cfg (S k) s) =
  fst (step cfg s) ++ fst (exec cfg k (snd (step cfg s))).
Proof.
  cbn [exec]. destruct (step cfg s) as [t s']. cbn [fst snd].
  now destruct (exec cfg k s').
Qed.

(** The invariant of the machine.  Let [ok] accept "commanded off".  Then
    along any execution every gate command finds the motor in a state that
    [ok] accepts; from [PowerOn], where [setup()] moves the gate before it
    touches the motor, [ok] must accept the initial state as well. *)
Lemma exec_gate_moves_when cfg ok :
  ok (Some 0) = true ->
  forall k s v,
    (s = PowerOn -> ok v = true) ->
    gate_moves_when ok v (fst (exec cfg k s)) = true.
Proof.
  intros Hoff. induction k as [|k IH]; intros s v Hinit; [reflexivity|].
  rewrite exec_S_fst.
  destruct s as [|c|c| |]; cbn [step fst snd].
  - cbn. rewrite (Hinit eq_refl). cbn [andb].
    apply IH. discriminate.
  - destruct (c <? PULSE_CYCLES cfg); cbn [fst snd app]; apply IH; discriminate.
  - cbn. rewrite Hoff. cbn [andb]. apply IH. discriminate.
  - cbn. apply IH. discriminate.
  - cbn [app]. apply IH. discriminate.
Qed.

(** * The pulse cycle *)

(** ** Derived timing *)

(** C1.  For every valid configuration the derived timing follows the
    clamping policy: when [REOPEN_LEAD_MS >= VIBE_OFF_MS] the gate is not
    held closed and the whole off-period is waited after reopening; when
    [REOPEN_LEAD_MS < VIBE_OFF_MS] the gate is held closed for the difference
    and the lead time is waited after reopening.  Equal values fall on the
    clamped side. *)
Theorem derived_timing_policy cfg :
  valid cfg ->
  (REOPEN_LEAD_MS cfg >= VIBE_OFF_MS cfg ->
   closedHold cfg = 0 /\ reopenWait cfg = VIBE_OFF_MS cfg) /\
  (REOPEN_LEAD_MS cfg < VIBE_OFF_MS cfg ->
   closedHold cfg = VIBE_OFF_MS cfg - REOPEN_LEAD_MS cfg /\
   reopenWait cfg = REOPEN_LEAD_MS cfg).
Proof.
  intros [Hty _]. split; intros Hcmp.
  - apply timing_clamped. lia.
  - apply timing_held; assumption.
Qed.

Lemma derived_timing_policy_witness :
  (valid three_pulses /\
   REOPEN_LEAD_MS three_pulses < VIBE_OFF_MS three_pulses /\
   closedHold three_pulses = 1500 - 250 /\ reopenWait three_pulses = 250) /\
  (valid long_lead /\
   REOPEN_LEAD_MS long_lead >= VIBE_OFF_MS long_lead /\
   closedHold long_lead = 0 /\ reopenWait long_lead = 1500).
Proof.
  assert (V3 : valid three_pulses).
  { split; [apply configure_well_typed | vm_compute; discriminate]. }
  assert (VL : valid long_lead).
  { split; [apply configure_well_typed | vm_compute; discriminate]. }
  assert (H3 : REOPEN_LEAD_MS three_pulses < VIBE_OFF_MS three_pulses)
    by reflexivity.
  assert (HL : REOPEN_LEAD_MS long_lead >= VIBE_OFF_MS long_lead)
    by (vm_compute; discriminate).
  split.
  - split; [exact V3 | split; [exact H3 |]].
    exact (proj2 (derived_timing_policy three_pulses V3) H3).
  - split; [exact VL | split; [exact HL |]].
    exact (proj1 (derived_timing_policy long_lead VL) HL).
Defined.

(** C2.  For every valid configuration the two derived durations add up to
    the off-period exactly, as integers and hence also as [unsigned long]
    values. *)
Theorem off_period_partition cfg :
  valid cfg ->
  closedHold cfg + reopenWait cfg = VIBE_OFF_MS cfg /\
  Avr.ulong (closedHold cfg + reopenWait cfg) = VIBE_OFF_MS cfg.
Proof.
  intros [Hty _].
  assert (Hsum : closedHold cfg + reopenWait cfg = VIBE_OFF_MS cfg).
  { destruct (Z_lt_le_dec (REOPEN_LEAD_MS cfg) (VIBE_OFF_MS cfg)) as [Hlt|Hle].
    - destruct (timing_held cfg Hty Hlt) as [-> ->]. lia.
    - destruct (timing_clamped cfg Hle) as [-> ->]. lia. }
  split; [exact Hsum|].
  rewrite Hsum. apply ulong_id, Hty.
Qed.

Lemma off_period_partition_witness :
  valid long_lead /\
  closedHold long_lead + reopenWait long_lead = 1500 /\
  Avr.ulong (closedHold long_lead + reopenWait long_lead) = 1500.
Proof.
  assert (VL : valid long_lead).
  { split; [apply configure_well_typed | vm_compute; discriminate]. }
  split; [exact VL|].
  exact (off_period_partition long_lead VL).
Defined.

(** C10.  The subtraction [VIBE_OFF_MS - REOPEN_LEAD_MS] is evaluated only
    under the guard [VIBE_OFF_MS > REOPEN_LEAD_MS], where its exact value is
    non-negative and the [unsigned long] result equals it.  So [closedHold]
    and [reopenWait] are the unwrapped values, and neither exceeds the
    off-period, for every configuration. *)
Theorem guarded_subtraction_never_wraps cfg :
  well_typed cfg ->
  ((VIBE_OFF_MS cfg >? REOPEN_LEAD_MS cfg) = true ->
   0 <= VIBE_OFF_MS cfg - REOPEN_LEAD_MS cfg /\
   Avr.ulong (VIBE_OFF_MS cfg - REOPEN_LEAD_MS cfg) =
   VIBE_OFF_MS cfg - REOPEN_LEAD_MS cfg) /\
  closedHold cfg = Z.max 0 (VIBE_OFF_MS cfg - REOPEN_LEAD_MS cfg) /\
  reopenWait cfg = Z.min (REOPEN_LEAD_MS cfg) (VIBE_OFF_MS cfg) /\
  0 <= closedHold cfg <= VIBE_OFF_MS cfg /\
  0 <= reopenWait cfg <= VIBE_OFF_MS cfg.
Proof.
  intros Hty.
  pose proof (off_is_ulong cfg Hty) as Ho.
  pose proof (lead_is_ulong cfg Hty) as Hl.
  unfold Avr.is_ulong in Ho, Hl.
  split.
  - intros Hg. apply Z.gtb_lt in Hg. split; [lia|].
    apply ulong_id. unfold Avr.is_ulong. lia.
  - destruct (Z_lt_le_dec (REOPEN_LEAD_MS cfg) (VIBE_OFF_MS cfg)) as [Hlt|Hle].
    + destruct (timing_held cfg Hty Hlt) as [-> ->]. lia.
    + destruct (timing_clamped cfg Hle) as [-> ->]. lia.
Qed.

Lemma guarded_subtraction_never_wraps_witness :
  well_typed three_pulses /\
  (VIBE_OFF_MS three_pulses >? REOPEN_LEAD_MS three_pulses) = true /\
  Avr.ulong (VIBE_OFF_MS three_pulses - REOPEN_LEAD_MS three_pulses) = 1250 /\
  closedHold three_pulses = 1250 /\
  closedHold three_pulses <= 1500 /\ reopenWait three_pulses <= 1500.
Proof.
  assert (W : well_typed three_pulses) by apply configure_well_typed.
  assert (G : (VIBE_OFF_MS three_pulses >? REOPEN_LEAD_MS three_pulses) = true)
    by reflexivity.
  destruct (guarded_subtraction_never_wraps three_pulses W)
    as (Hsub & Hhold & _ & Hh & Hw).
  split; [exact W | split; [exact G |]].
  split; [exact (proj2 (Hsub G)) |].
  split; [exact Hhold |].
  split; [exact (proj2 Hh) | exact (proj2 Hw)].
Defined.

(** ** The command sequence of a run *)

Lemma count_shutdown_vibration_on cfg :
  VIBE_PWM cfg <> 0 ->
  count (AnalogWrite BUZZER_PIN (VIBE_PWM cfg)) shutdown = 0%nat.
Proof.
  intros Hpwm. unfold count, shutdown. cbn [filter event_eqb].
  apply Z.eqb_neq in Hpwm. rewrite Hpwm, andb_false_r. reflexivity.
Qed.

Lemma exec_loop_from cfg k :
  well_typed cfg -> (steps_of_loop cfg <= k)%nat ->
  exec cfg k loop_entry =
  (pulses cfg (Z.to_nat (PULSE_CYCLES cfg)) ++ shutdown, Halt).
Proof.
  intros Hty Hk.
  replace k with (steps_of_loop cfg + (k - steps_of_loop cfg))%nat by lia.
  now apply exec_loop.
Qed.

Lemma exec_program_from cfg k :
  well_typed cfg -> (steps_of_program cfg <= k)%nat ->
  exec cfg k PowerOn =
  (setup cfg ++ pulses cfg (Z.to_nat (PULSE_CYCLES cfg)) ++ shutdown, Halt).
Proof.
  intros Hty Hk.
  replace k with (steps_of_program cfg + (k - steps_of_program cfg))%nat by lia.
  now apply exec_program.
Qed.

(** C3.  For every valid configuration with [PULSE_CYCLES = n], the commands
    that a complete run of [loop()] issues are [n] copies of the block
    vibration-on (at [VIBE_PWM]), vibration-off, gate-close, gate-reopen,
    followed by the final vibration-off.  Commands are told apart by their
    arguments, so counted by value there are exactly [n] vibration-on
    commands when [VIBE_PWM] is not 0, and exactly [n] gate-close and [n]
    gate-reopen commands when the two angles differ. *)
Theorem pulse_commands_interleaved cfg (n k : nat) :
  valid cfg ->
  PULSE_CYCLES cfg = Z.of_nat n ->
  (steps_of_loop cfg <= k)%nat ->
  commands (fst (exec cfg k loop_entry)) =
    concat (repeat (pulse_commands cfg) n) ++ [AnalogWrite BUZZER_PIN 0] /\
  (VIBE_PWM cfg <> 0 ->
   count (AnalogWrite BUZZER_PIN (VIBE_PWM cfg))
         (fst (exec cfg k loop_entry)) = n) /\
  (SERVO_CLOSE_DEG cfg <> SERVO_OPEN_DEG cfg ->
   count (ServoWrite (SERVO_CLOSE_DEG cfg))
         (fst (exec cfg k loop_entry)) = n /\
   count (ServoWrite (SERVO_OPEN_DEG cfg))
         (fst (exec cfg k loop_entry)) = n).
Proof.
  intros [Hty _] Hn Hk.
  rewrite (exec_loop_from cfg k Hty Hk), Hn, Nat2Z.id. cbn [fst].
  split; [|split].
  - now rewrite commands_app, commands_pulses.
  - intros Hpwm.
    rewrite count_app, (count_pulses _ cfg 1 n),
      (count_shutdown_vibration_on cfg Hpwm); [lia|].
    intros i. now apply count_vibration_on.
  - intros Hne. split.
    + rewrite count_app, (count_pulses _ cfg 1 n); [cbn; lia|].
      intros i. now apply count_gate_close.
    + rewrite count_app, (count_pulses _ cfg 1 n); [cbn; lia|].
      intros i. now apply count_gate_open.
Qed.

Lemma pulse_commands_interleaved_witness :
  valid three_pulses /\
  PULSE_CYCLES three_pulses = 3 /\
  (steps_of_loop three_pulses <= 8)%nat /\
  commands (fst (exec three_pulses 8 loop_entry)) =
    [ AnalogWrite 11 255; AnalogWrite 11 0; ServoWrite 130; ServoWrite 123;
      AnalogWrite 11 255; AnalogWrite 11 0; ServoWrite 130; ServoWrite 123;
      AnalogWrite 11 255; AnalogWrite 11 0; ServoWrite 130; ServoWrite 123;
      AnalogWrite 11 0 ] /\
  count (AnalogWrite 11 255) (fst (exec three_pulses 8 loop_entry)) = 3%nat /\
  count (ServoWrite 130) (fst (exec three_pulses 8 loop_entry)) = 3%nat /\
  count (ServoWrite 123) (fst (exec three_pulses 8 loop_entry)) = 3%nat.
Proof.
  assert (V : valid three_pulses).
  { split; [apply configure_well_typed | vm_compute; discriminate]. }
  assert (N : PULSE_CYCLES three_pulses = Z.of_nat 3) by reflexivity.
  assert (K : (steps_of_loop three_pulses <= 8)%nat) by (vm_compute; lia).
  assert (P : VIBE_PWM three_pulses <> 0) by (vm_compute; discriminate).
  assert (D : SERVO_CLOSE_DEG three_pulses <> SERVO_OPEN_DEG three_pulses)
    by (vm_compute; discriminate).
  destruct (pulse_commands_interleaved three_pulses 3 8 V N K)
    as (Hcmd & Hon & Hgate).
  split; [exact V | split; [exact N | split; [exact K |]]].
  split; [exact Hcmd |].
  split; [exact (Hon P) |].
  exact (Hgate D).
Defined.

(** C4.  The motor is commanded off before the gate is commanded closed.
    Within one pulse, in the trace of [loop()] after any number of steps,
    the most recent vibration command before a gate-close command is the
    intensity 0; and in the whole program, from power-on, the most recent
    vibration command at a gate-close command is never non-zero. *)
Theorem vibration_off_before_gate_close cfg (k : nat) (c : Z) pre post :
  (pulse cfg c = pre ++ ServoWrite (SERVO_CLOSE_DEG cfg) :: post ->
   last_vibration pre = Some 0) /\
  (fst (exec cfg k loop_entry) =
     pre ++ ServoWrite (SERVO_CLOSE_DEG cfg) :: post ->
   last_vibration pre = Some 0) /\
  (fst (exec cfg k PowerOn) =
     pre ++ ServoWrite (SERVO_CLOSE_DEG cfg) :: post ->
   forall v, last_vibration pre = Some v -> v = 0).
Proof.
  split; [|split]; intros Hsplit.
  - apply is_off_Some. unfold last_vibration.
    apply (gate_moves_when_split is_off pre None (SERVO_CLOSE_DEG cfg) post).
    rewrite <- Hsplit. reflexivity.
  - apply is_off_Some. unfold last_vibration.
    apply (gate_moves_when_split is_off pre None (SERVO_CLOSE_DEG cfg) post).
    rewrite <- Hsplit. apply exec_gate_moves_when; [reflexivity | discriminate].
  - intros v Hv. apply (not_on_Some (last_vibration pre)); [|exact Hv].
    unfold last_vibration.
    apply (gate_moves_when_split not_on pre None (SERVO_CLOSE_DEG cfg) post).
    rewrite <- Hsplit. apply exec_gate_moves_when; reflexivity.
Qed.

Lemma vibration_off_before_gate_close_witness :
  let pre :=
    [ SerialPrint "Pulse "%string; SerialPrintInt 1;
      SerialPrint " / "%string; SerialPrintlnInt 3;
      AnalogWrite 11 255; Delay 500; AnalogWrite 11 0 ] in
  let post := [ Delay 1250; ServoWrite 123; Delay 250 ] in
  (pulse three_pulses 0 = pre ++ ServoWrite 130 :: post /\
   last_vibration pre = Some 0) /\
  (fst (exec three_pulses 2 loop_entry) = pre ++ ServoWrite 130 :: post /\
   last_vibration pre = Some 0) /\
  (fst (exec three_pulses 3 PowerOn) =
     (setup three_pulses ++ pre) ++ ServoWrite 130 :: post /\
   last_vibration (setup three_pulses ++ pre) = Some 0 /\
   forall v, last_vibration (setup three_pulses ++ pre) = Some v -> v = 0).
Proof.
  intros pre post.
  assert (E1 : pulse three_pulses 0 =
               pre ++ ServoWrite (SERVO_CLOSE_DEG three_pulses) :: post)
    by reflexivity.
  assert (E2 : fst (exec three_pulses 2 loop_entry) =
               pre ++ ServoWrite (SERVO_CLOSE_DEG three_pulses) :: post)
    by reflexivity.
  assert (E3 : fst (exec three_pulses 3 PowerOn) =
               (setup three_pulses ++ pre) ++
               ServoWrite (SERVO_CLOSE_DEG three_pulses) :: post)
    by reflexivity.
  split; [|split].
  - split; [exact E1|].
    exact (proj1 (vibration_off_before_gate_close
                    three_pulses 2 0 pre post) E1).
  - split; [exact E2|].
    exact (proj1 (proj2 (vibration_off_before_gate_close
                           three_pulses 2 0 pre post)) E2).
  - split; [exact E3 | split; [reflexivity|]].
    exact (proj2 (proj2 (vibration_off_before_gate_close
                           three_pulses 3 0 (setup three_pulses ++ pre) post))
                 E3).
Defined.

(** ** Start and end of a run *)


(** C5.  For every valid configuration, once the last pulse is over the
    program issues the vibration shutdown exactly once and halts: after any
    number of steps beyond that point the trace is still the initialisation,
    the [PULSE_CYCLES] pulses and the single shutdown, control is in [Halt],
    and [Halt] only steps to itself without issuing anything. *)
Theorem single_shutdown_then_silence cfg (k : nat) :
  valid cfg ->
  (steps_of_program cfg <= k)%nat ->
  exec cfg k PowerOn =
    (setup cfg ++ pulses cfg (Z.to_nat (PULSE_CYCLES cfg)) ++ shutdown, Halt) /\
  commands (fst (exec cfg k PowerOn)) =
    commands (setup cfg) ++
    concat (repeat (pulse_commands cfg) (Z.to_nat (PULSE_CYCLES cfg))) ++
    [AnalogWrite BUZZER_PIN 0] /\
  step cfg Halt = ([], Halt) /\
  (forall j, exec cfg j Halt = ([], Halt)).
Proof.
  intros [Hty _] Hk.
  rewrite (exec_program_from cfg k Hty Hk). cbn [fst].
  split; [reflexivity | split; [| split; [reflexivity |]]].
  - now rewrite !commands_app, commands_pulses.
  - intros j. apply exec_Halt.
Qed.

Lemma single_shutdown_then_silence_witness :
  valid three_pulses /\
  (steps_of_program three_pulses <= 20)%nat /\
  snd (exec three_pulses 20 PowerOn) = Halt /\
  commands (fst (exec three_pulses 20 PowerOn)) =
    [ ServoWrite 123; AnalogWrite 11 0;
      AnalogWrite 11 255; AnalogWrite 11 0; ServoWrite 130; ServoWrite 123;
      AnalogWrite 11 255; AnalogWrite 11 0; ServoWrite 130; ServoWrite 123;
      AnalogWrite 11 255; AnalogWrite 11 0; ServoWrite 130; ServoWrite 123;
      AnalogWrite 11 0 ].
Proof.
  assert (V : valid three_pulses).
  { split; [apply configure_well_typed | vm_compute; discriminate]. }
  assert (K : (steps_of_program three_pulses <= 20)%nat) by (vm_compute; lia).
  destruct (single_shutdown_then_silence three_pulses 20 V K)
    as (Hexec & Hcmd & _).
  split; [exact V | split; [exact K |]].
  split; [exact (f_equal snd Hexec) | exact Hcmd].
Defined.

(** C6.  With [PULSE_CYCLES = 0] the run of [loop()] is an ordinary one: it
    issues nothing until the shutdown, then exactly the shutdown, and halts;
    its only actuator command is the vibration-off of the shutdown. *)
Theorem zero_pulses_only_shutdown cfg (k : nat) :
  PULSE_CYCLES cfg = 0 ->
  ((k < 2)%nat -> fst (exec cfg k loop_entry) = []) /\
  ((2 <= k)%nat ->
   exec cfg k loop_entry = (shutdown, Halt) /\
   commands (fst (exec cfg k loop_entry)) = [AnalogWrite BUZZER_PIN 0]).
Proof.
  intros Hzero. unfold loop_entry.
  destruct k as [|[|k]].
  - split; [reflexivity | lia].
  - split; [|lia]. intros _. cbn [exec step]. rewrite Hzero. reflexivity.
  - split; [lia|]. intros _. cbn [exec step]. rewrite Hzero.
    cbn [Z.ltb Z.compare step]. rewrite exec_Halt. split; reflexivity.
Qed.

Lemma zero_pulses_only_shutdown_witness :
  PULSE_CYCLES no_pulse = 0 /\
  fst (exec no_pulse 1 loop_entry) = [] /\
  exec no_pulse 5 loop_entry =
    ([AnalogWrite 11 0; SerialPrintln "Pulse sequence complete."%string],
     Halt) /\
  commands (fst (exec no_pulse 5 loop_entry)) = [AnalogWrite 11 0].
Proof.
  assert (Z0 : PULSE_CYCLES no_pulse = 0) by reflexivity.
  split; [exact Z0|].
  split.
  - apply (proj1 (zero_pulses_only_shutdown no_pulse 1 Z0)). lia.
  - apply (proj2 (zero_pulses_only_shutdown no_pulse 5 Z0)). lia.
Defined.

(** C8.  The first step of the program is [setup()], before anything of
    [loop()]: its actuator commands are gate to [SERVO_OPEN_DEG] and
    vibration to 0, so the first pulse starts with the gate commanded open
    and the motor commanded off. *)
Theorem setup_opens_gate_and_stops_motor cfg (k : nat) :
  step cfg PowerOn = (setup cfg, loop_entry) /\
  fst (exec cfg (S k) PowerOn) = setup cfg ++ fst (exec cfg k loop_entry) /\
  commands (setup cfg) =
    [ServoWrite (SERVO_OPEN_DEG cfg); AnalogWrite BUZZER_PIN 0] /\
  last_gate (setup cfg) = Some (SERVO_OPEN_DEG cfg) /\
  last_vibration (setup cfg) = Some 0.
Proof.
  split; [reflexivity|].
  split; [apply exec_from_PowerOn|].
  repeat split.
Qed.

(** C9.  The last gate command of every pulse is the reopening, the shutdown
    issues no gate command, and so, for every pulse count (zero and negative
    included), when the program has halted the most recent gate command is
    the one to [SERVO_OPEN_DEG]. *)
Theorem gate_left_open cfg (k : nat) :
  well_typed cfg ->
  (steps_of_program cfg <= k)%nat ->
  (forall c, last_gate (pulse cfg c) = Some (SERVO_OPEN_DEG cfg)) /\
  (forall g, gate_after g shutdown = g) /\
  snd (exec cfg k PowerOn) = Halt /\
  last_gate (fst (exec cfg k PowerOn)) = Some (SERVO_OPEN_DEG cfg).
Proof.
  intros Hty Hk.
  rewrite (exec_program_from cfg k Hty Hk). cbn [fst snd].
  repeat split.
  unfold last_gate. rewrite !gate_after_app, gate_after_pulses.
  destruct (Z.to_nat (PULSE_CYCLES cfg)); reflexivity.
Qed.

Lemma gate_left_open_witness :
  (well_typed three_pulses /\
   (steps_of_program three_pulses <= 9)%nat /\
   snd (exec three_pulses 9 PowerOn) = Halt /\
   last_gate (fst (exec three_pulses 9 PowerOn)) = Some 123) /\
  (well_typed no_pulse /\
   (steps_of_program no_pulse <= 3)%nat /\
   snd (exec no_pulse 3 PowerOn) = Halt /\
   last_gate (fst (exec no_pulse 3 PowerOn)) = Some 123).
Proof.
  assert (W3 : well_typed three_pulses) by apply configure_well_typed.
  assert (W0 : well_typed no_pulse) by apply configure_well_typed.
  assert (K3 : (steps_of_program three_pulses <= 9)%nat) by (vm_compute; lia).
  assert (K0 : (steps_of_program no_pulse <= 3)%nat) by (vm_compute; lia).
  split.
  - split; [exact W3 | split; [exact K3 |]].
    exact (proj2 (proj2 (gate_left_open three_pulses 9 W3 K3))).
  - split; [exact W0 | split; [exact K0 |]].
    exact (proj2 (proj2 (gate_left_open no_pulse 3 W0 K0))).
Defined.

(** ** Configuration is not checked *)







(** * Further properties of the sketch *)

(** ** Timing of a whole run *)

Lemma hold_plus_wait cfg :
  well_typed cfg -> closedHold cfg + reopenWait cfg = VIBE_OFF_MS cfg.
Proof.
  intros Hty.
  destruct (Z_lt_le_dec (REOPEN_LEAD_MS cfg) (VIBE_OFF_MS cfg)) as [Hlt|Hle].
  - destruct (timing_held cfg Hty Hlt) as [-> ->]. lia.
  - destruct (timing_clamped cfg Hle) as [-> ->]. lia.
Qed.

Lemma pulse_count_max cfg :
  Z.of_nat (Z.to_nat (PULSE_CYCLES cfg)) = Z.max 0 (PULSE_CYCLES cfg).
Proof. lia. Qed.

Lemma elapsed_app a b : elapsed (a ++ b) = elapsed a + elapsed b.
Proof.
  induction a as [|e a IH]; [reflexivity|].
  destruct e; cbn [app elapsed]; rewrite IH; lia.
Qed.

Lemma elapsed_pulses cfg n :
  elapsed (pulses cfg n) =
  Z.of_nat n * (VIBE_ON_MS cfg + (closedHold cfg + reopenWait cfg)).
Proof.
  unfold pulses. generalize 0%nat as c.
  induction n as [|n IH]; intros c; [reflexivity|].
  cbn [seq flat_map]. rewrite elapsed_app, IH. cbn [pulse elapsed]. lia.
Qed.

(** X1.  A complete run waits for the start-up delay and then one on-period
    plus one off-period per pulse, whatever the lead time: the gate timing
    moves the reopening inside the off-period and never stretches or shortens
    a pulse. *)
Theorem run_time cfg (k : nat) :
  well_typed cfg ->
  (steps_of_program cfg <= k)%nat ->
  (forall c, elapsed (pulse cfg c) = VIBE_ON_MS cfg + VIBE_OFF_MS cfg) /\
  elapsed (fst (exec cfg k PowerOn)) =
    11000 + Z.max 0 (PULSE_CYCLES cfg) * (VIBE_ON_MS cfg + VIBE_OFF_MS cfg).
Proof.
  intros Hty Hk. pose proof (hold_plus_wait cfg Hty) as Hsum. split.
  - intros c. cbn [pulse elapsed]. lia.
  - rewrite (exec_program_from cfg k Hty Hk). cbn [fst].
    rewrite !elapsed_app, elapsed_pulses, pulse_count_max, Hsum.
    cbn [setup shutdown elapsed]. lia.
Qed.

Lemma run_time_witness :
  well_typed long_lead /\
  (steps_of_program long_lead <= 9)%nat /\
  elapsed (fst (exec long_lead 9 PowerOn)) = 11000 + 3 * (500 + 1500).
Proof.
  assert (W : well_typed long_lead) by apply configure_well_typed.
  assert (K : (steps_of_program long_lead <= 9)%nat) by (vm_compute; lia).
  split; [exact W | split; [exact K |]].
  exact (proj2 (run_time long_lead 9 W K)).
Defined.

Lemma vibrating_time_app a : forall v b,
  vibrating_time v (a ++ b) =
  vibrating_time v a + vibrating_time (vibration_after v a) b.
Proof.
  induction a as [|e a IH]; intros v b; [reflexivity|].
  destruct e; cbn [app vibrating_time]; rewrite IH; try reflexivity.
  change (vibration_after v (Delay ms :: a)) with (vibration_after v a).
  apply Z.add_assoc.
Qed.

Lemma vibrating_time_pulse cfg c v :
  vibrating_time v (pulse cfg c) =
  (if VIBE_PWM cfg =? 0 then 0 else VIBE_ON_MS cfg) /\
  vibration_after v (pulse cfg c) = Some 0.
Proof.
  split; [|reflexivity].
  cbn. destruct (VIBE_PWM cfg =? 0); lia.
Qed.

Lemma vibrating_time_pulses cfg n : forall v,
  vibrating_time v (pulses cfg n) =
  Z.of_nat n * (if VIBE_PWM cfg =? 0 then 0 else VIBE_ON_MS cfg) /\
  (vibration_after v (pulses cfg n) = match n with O => v | S _ => Some 0 end).
Proof.
  unfold pulses. generalize 0%nat as c.
  induction n as [|n IH]; intros c v; [split; reflexivity|].
  cbn [seq flat_map].
  rewrite vibrating_time_app, vibration_after_app.
  destruct (vibrating_time_pulse cfg (Z.of_nat c) v) as [-> ->].
  destruct (IH (S c) (Some 0)) as [-> ->].
  split; [lia | destruct n; reflexivity].
Qed.

(** X2.  Over a complete run the motor is commanded to a non-zero intensity
    for exactly one on-period per pulse: it is off during the start-up delay,
    the closed hold and the wait after reopening.  (With [VIBE_PWM = 0] it
    never runs.) *)
Theorem motor_run_time cfg (k : nat) :
  well_typed cfg ->
  (steps_of_program cfg <= k)%nat ->
  vibrating_time None (fst (exec cfg k PowerOn)) =
    if VIBE_PWM cfg =? 0 then 0
    else Z.max 0 (PULSE_CYCLES cfg) * VIBE_ON_MS cfg.
Proof.
  intros Hty Hk.
  rewrite (exec_program_from cfg k Hty Hk). cbn [fst].
  rewrite vibrating_time_app, vibrating_time_app.
  destruct (vibrating_time_pulses cfg (Z.to_nat (PULSE_CYCLES cfg))
              (vibration_after None (setup cfg))) as [-> ->].
  rewrite pulse_count_max.
  replace (vibrating_time None (setup cfg)) with 0 by reflexivity.
  assert (Hs : forall v, not_on v = true -> vibrating_time v shutdown = 0)
    by reflexivity.
  rewrite Hs by (destruct (Z.to_nat (PULSE_CYCLES cfg)); reflexivity).
  destruct (VIBE_PWM cfg =? 0); lia.
Qed.

Lemma motor_run_time_witness :
  well_typed three_pulses /\
  (steps_of_program three_pulses <= 9)%nat /\
  vibrating_time None (fst (exec three_pulses 9 PowerOn)) = 3 * 500.
Proof.
  assert (W : well_typed three_pulses) by apply configure_well_typed.
  assert (K : (steps_of_program three_pulses <= 9)%nat) by (vm_compute; lia).
  split; [exact W | split; [exact K |]].
  exact (motor_run_time three_pulses 9 W K).
Defined.

Lemma gate_time_app deg a : forall g b,
  gate_time deg g (a ++ b) =
  gate_time deg g a + gate_time deg (gate_after g a) b.
Proof.
  induction a as [|e a IH]; intros g b; [reflexivity|].
  destruct e; cbn [app gate_time]; rewrite IH; try reflexivity.
  change (gate_after g (Delay ms :: a)) with (gate_after g a).
  apply Z.add_assoc.
Qed.

Section GateTime.

Variable cfg : CycleConfig.
Hypothesis Hangles : SERVO_CLOSE_DEG cfg <> SERVO_OPEN_DEG cfg.

Let opened : option Z := Some (SERVO_OPEN_DEG cfg).

Lemma open_is_not_close :
  (SERVO_OPEN_DEG cfg =? SERVO_CLOSE_DEG cfg) = false.
Proof. apply Z.eqb_neq. congruence. Qed.

Lemma gate_time_pulse c :
  gate_time (SERVO_CLOSE_DEG cfg) opened (pulse cfg c) = closedHold cfg /\
  gate_time (SERVO_OPEN_DEG cfg) opened (pulse cfg c) =
    VIBE_ON_MS cfg + reopenWait cfg.
Proof.
  pose proof open_is_not_close as Hoc.
  assert (Hco : (SERVO_CLOSE_DEG cfg =? SERVO_OPEN_DEG cfg) = false)
    by (now apply Z.eqb_neq).
  unfold opened. split; cbn; rewrite ?Z.eqb_refl, ?Hoc, ?Hco; lia.
Qed.

Lemma gate_time_pulses n :
  gate_time (SERVO_CLOSE_DEG cfg) opened (pulses cfg n) =
    Z.of_nat n * closedHold cfg /\
  gate_time (SERVO_OPEN_DEG cfg) opened (pulses cfg n) =
    Z.of_nat n * (VIBE_ON_MS cfg + reopenWait cfg).
Proof.
  unfold pulses. generalize 0%nat as c.
  induction n as [|n IH]; intros c; [split; reflexivity|].
  cbn [seq flat_map]. rewrite !gate_time_app.
  change (gate_after opened (pulse cfg (Z.of_nat c))) with opened.
  destruct (gate_time_pulse (Z.of_nat c)) as [-> ->].
  destruct (IH (S c)) as [-> ->]. split; lia.
Qed.

End GateTime.

(** X3.  When the two gate angles differ, over a complete run the gate is
    commanded closed for exactly one closed hold per pulse, and commanded
    open for the rest: the start-up delay and, per pulse, the on-period and
    the wait after reopening. *)
Theorem gate_closed_time cfg (k : nat) :
  well_typed cfg ->
  SERVO_CLOSE_DEG cfg <> SERVO_OPEN_DEG cfg ->
  (steps_of_program cfg <= k)%nat ->
  gate_time (SERVO_CLOSE_DEG cfg) None (fst (exec cfg k PowerOn)) =
    Z.max 0 (PULSE_CYCLES cfg) * closedHold cfg /\
  gate_time (SERVO_OPEN_DEG cfg) None (fst (exec cfg k PowerOn)) =
    11000 + Z.max 0 (PULSE_CYCLES cfg) * (VIBE_ON_MS cfg + reopenWait cfg).
Proof.
  intros Hty Hne Hk.
  rewrite (exec_program_from cfg k Hty Hk). cbn [fst].
  rewrite !gate_time_app.
  change (gate_after None (setup cfg)) with (Some (SERVO_OPEN_DEG cfg)).
  destruct (gate_time_pulses cfg Hne (Z.to_nat (PULSE_CYCLES cfg))) as [-> ->].
  rewrite pulse_count_max.
  pose proof (open_is_not_close cfg Hne) as Hoc.
  assert (Hsc : gate_time (SERVO_CLOSE_DEG cfg) None (setup cfg) = 0).
  { cbn [setup gate_time gate_after fold_left gate_at]. now rewrite Hoc. }
  assert (Hso : gate_time (SERVO_OPEN_DEG cfg) None (setup cfg) = 11000).
  { cbn [setup gate_time gate_after fold_left gate_at].
    now rewrite Z.eqb_refl. }
  assert (Hsh : forall d g, gate_time d g shutdown = 0) by reflexivity.
  rewrite Hsc, Hso, !Hsh. split; lia.
Qed.

Lemma gate_closed_time_witness :
  well_typed three_pulses /\
  SERVO_CLOSE_DEG three_pulses <> SERVO_OPEN_DEG three_pulses /\
  (steps_of_program three_pulses <= 9)%nat /\
  gate_time 130 None (fst (exec three_pulses 9 PowerOn)) = 3 * 1250 /\
  gate_time 123 None (fst (exec three_pulses 9 PowerOn)) =
    11000 + 3 * (500 + 250).
Proof.
  assert (W : well_typed three_pulses) by apply configure_well_typed.
  assert (D : SERVO_CLOSE_DEG three_pulses <> SERVO_OPEN_DEG three_pulses)
    by (vm_compute; discriminate).
  assert (K : (steps_of_program three_pulses <= 9)%nat) by (vm_compute; lia).
  split; [exact W | split; [exact D | split; [exact K |]]].
  exact (gate_closed_time three_pulses 9 W D K).
Defined.

(** ** The motor runs only with the gate open *)

Lemma motor_starts_when_split ok pre : forall g pin value post,
  motor_starts_when ok g (pre ++ AnalogWrite pin value :: post) = true ->
  value <> 0 ->
  ok (gate_after g pre) = true.
Proof.
  induction pre as [|e pre IH]; intros g pin value post H Hv.
  - cbn in H. apply andb_true_iff in H. destruct H as [H _].
    apply orb_true_iff in H. destruct H as [H|H]; [|exact H].
    apply Z.eqb_eq in H. contradiction.
  - destruct e; cbn [app motor_starts_when] in H;
      try (apply andb_true_iff in H; destruct H as [_ H]);
      apply IH in H; assumption.
Qed.

(** From every control point after [setup()] the gate is commanded open,
    and stays so up to the next start of the motor. *)
Lemma exec_motor_starts_when cfg k : forall s g,
  (s <> PowerOn -> gate_at (SERVO_OPEN_DEG cfg) g = true) ->
  motor_starts_when (gate_at (SERVO_OPEN_DEG cfg)) g (fst (exec cfg k s))
  = true.
Proof.
  induction k as [|k IH]; intros s g Hg; [reflexivity|].
  rewrite exec_S_fst.
  destruct s as [|c|c| |]; cbn [step fst snd].
  - cbn. apply IH. intros _. cbn. apply Z.eqb_refl.
  - destruct (c <? PULSE_CYCLES cfg); cbn [fst snd app]; apply IH;
      intros _; apply Hg; discriminate.
  - cbn. rewrite Hg by discriminate. rewrite orb_true_r. cbn [andb].
    apply IH. intros _. cbn. apply Z.eqb_refl.
  - cbn. apply IH. intros _. apply Hg. discriminate.
  - cbn [app]. apply IH. intros _. apply Hg. discriminate.
Qed.

(** X4.  At any moment of the program, a command that sets the motor to a
    non-zero intensity finds the gate commanded open: the most recent gate
    command before it is the one to [SERVO_OPEN_DEG].  The motor is never
    started against a closed gate, not even in the first pulse. *)
Theorem motor_starts_with_gate_open cfg (k : nat) pre pin value post :
  fst (exec cfg k PowerOn) = pre ++ AnalogWrite pin value :: post ->
  value <> 0 ->
  last_gate pre = Some (SERVO_OPEN_DEG cfg).
Proof.
  intros Hsplit Hv.
  assert (H : gate_at (SERVO_OPEN_DEG cfg) (last_gate pre) = true).
  { unfold last_gate.
    apply (motor_starts_when_split _ pre None pin value post); [|exact Hv].
    rewrite <- Hsplit. apply exec_motor_starts_when.
    intros Hs. now contradiction Hs. }
  destruct (last_gate pre) as [d|]; [|discriminate].
  cbn in H. apply Z.eqb_eq in H. now subst.
Qed.

Lemma motor_starts_with_gate_open_witness :
  let pre :=
    setup three_pulses ++
    [ SerialPrint "Pulse "%string; SerialPrintInt 1;
      SerialPrint " / "%string; SerialPrintlnInt 3 ] in
  let post :=
    [ Delay 500; AnalogWrite 11 0; ServoWrite 130; Delay 1250;
      ServoWrite 123; Delay 250 ] in
  fst (exec three_pulses 3 PowerOn) = pre ++ AnalogWrite 11 255 :: post /\
  255 <> 0 /\
  last_gate pre = Some 123.
Proof.
  intros pre post.
  assert (E : fst (exec three_pulses 3 PowerOn) =
              pre ++ AnalogWrite 11 255 :: post) by reflexivity.
  assert (V : 255 <> 0) by discriminate.
  split; [exact E | split; [exact V |]].
  exact (motor_starts_with_gate_open three_pulses 3 pre 11 255 post E V).
Defined.

(** ** The loop counter *)

Lemma exec_S_snd cfg k s :
  snd (exec cfg (S k) s) = snd (exec cfg k (snd (step cfg s))).
Proof.
  cbn [exec]. destruct (step cfg s) as [t s']. cbn [snd].
  now destruct (exec cfg k s').
Qed.

Lemma step_counter_ok cfg s :
  well_typed cfg -> counter_ok cfg s -> counter_ok cfg (snd (step cfg s)).
Proof.
  intros Hty Hs.
  assert (Hint : Avr.is_int (PULSE_CYCLES cfg)) by apply Hty.
  unfold Avr.is_int in Hint.
  destruct s as [|c|c| |]; cbn [step snd counter_ok] in *; try exact I.
  - unfold loop_entry, counter_ok. lia.
  - destruct (c <? PULSE_CYCLES cfg) eqn:E; cbn [snd counter_ok]; [|exact I].
    apply Z.ltb_lt in E. lia.
  - rewrite int_id by (unfold Avr.is_int; lia). lia.
Qed.

Lemma exec_counter_ok cfg k : forall s,
  well_typed cfg -> counter_ok cfg s -> counter_ok cfg (snd (exec cfg k s)).
Proof.
  induction k as [|k IH]; intros s Hty Hs; [exact Hs|].
  rewrite exec_S_snd. apply IH; [exact Hty|]. now apply step_counter_ok.
Qed.

(** X5.  The loop counter stays within its bounds at every moment of the
    program: between 0 and the pulse count at the loop test, strictly below
    the pulse count inside the body.  So [cycle + 1], printed and assigned
    back by [cycle++], never exceeds [INT_MAX]: the increment does not
    overflow, even with the largest pulse count. *)
Theorem loop_counter_in_bounds cfg (k : nat) :
  well_typed cfg ->
  counter_ok cfg (snd (exec cfg k PowerOn)) /\
  (forall c, snd (exec cfg k PowerOn) = ForBody c ->
     0 <= c < PULSE_CYCLES cfg /\
     c + 1 <= Avr.INT_MAX /\
     Avr.int (c + 1) = c + 1).
Proof.
  intros Hty.
  assert (Hok : counter_ok cfg (snd (exec cfg k PowerOn)))
    by (apply exec_counter_ok; [exact Hty | exact I]).
  split; [exact Hok|].
  intros c Hc. rewrite Hc in Hok. cbn [counter_ok] in Hok.
  assert (Hint : Avr.is_int (PULSE_CYCLES cfg)) by apply Hty.
  unfold Avr.is_int in Hint. unfold Avr.INT_MAX.
  split; [exact Hok | split; [lia|]].
  apply int_id. unfold Avr.is_int. lia.
Qed.

Lemma loop_counter_in_bounds_witness :
  well_typed three_pulses /\
  snd (exec three_pulses 6 PowerOn) = ForBody 2 /\
  (0 <= 2 < PULSE_CYCLES three_pulses /\
   2 + 1 <= Avr.INT_MAX /\
   Avr.int (2 + 1) = 2 + 1).
Proof.
  assert (W : well_typed three_pulses) by apply configure_well_typed.
  assert (S6 : snd (exec three_pulses 6 PowerOn) = ForBody 2) by reflexivity.
  split; [exact W | split; [exact S6 |]].
  exact (proj2 (loop_counter_in_bounds three_pulses 6 W) 2 S6).
Defined.

(** ** Progress messages *)

Lemma printed_numbers_pulses cfg n : forall c : nat,
  Z.of_nat (c + n) <= Avr.INT_MAX ->
  printed_numbers (flat_map (fun i => pulse cfg (Z.of_nat i)) (seq c n)) =
  map Z.of_nat (seq (S c) n).
Proof.
  unfold Avr.INT_MAX.
  induction n as [|n IH]; intros c Hc; [reflexivity|].
  cbn [seq flat_map map]. unfold printed_numbers in *.
  rewrite flat_map_app, (IH (S c)) by lia.
  cbn [pulse flat_map app].
  rewrite int_id by (unfold Avr.is_int; lia).
  f_equal. lia.
Qed.

Lemma printed_totals_pulses cfg n :
  printed_totals (pulses cfg n) = repeat (PULSE_CYCLES cfg) n.
Proof.
  unfold pulses, printed_totals. generalize 0%nat as c.
  induction n as [|n IH]; intros c; [reflexivity|].
  cbn [seq flat_map repeat]. rewrite flat_map_app, IH. reflexivity.
Qed.

(** X6.  A complete run announces its pulses as 1, 2, ..., n, in this order
    and each once, where n is the pulse count (nothing for a count of zero
    or less), and every announcement carries the pulse count as its total. *)
Theorem progress_numbers cfg (k : nat) :
  well_typed cfg ->
  (steps_of_program cfg <= k)%nat ->
  printed_numbers (fst (exec cfg k PowerOn)) =
    map Z.of_nat (seq 1 (Z.to_nat (PULSE_CYCLES cfg))) /\
  printed_totals (fst (exec cfg k PowerOn)) =
    repeat (PULSE_CYCLES cfg) (Z.to_nat (PULSE_CYCLES cfg)).
Proof.
  intros Hty Hk.
  assert (Hint : Avr.is_int (PULSE_CYCLES cfg)) by apply Hty.
  unfold Avr.is_int in Hint.
  rewrite (exec_program_from cfg k Hty Hk). cbn [fst].
  split.
  - unfold printed_numbers. rewrite !flat_map_app.
    fold (printed_numbers (pulses cfg (Z.to_nat (PULSE_CYCLES cfg)))).
    unfold pulses. rewrite printed_numbers_pulses by (unfold Avr.INT_MAX; lia).
    cbn [setup shutdown flat_map app]. now rewrite app_nil_r.
  - unfold printed_totals. rewrite !flat_map_app.
    fold (printed_totals (pulses cfg (Z.to_nat (PULSE_CYCLES cfg)))).
    rewrite printed_totals_pulses.
    cbn [setup shutdown flat_map app]. now rewrite app_nil_r.
Qed.

Lemma progress_numbers_witness :
  well_typed three_pulses /\
  (steps_of_program three_pulses <= 9)%nat /\
  printed_numbers (fst (exec three_pulses 9 PowerOn)) = [1; 2; 3] /\
  printed_totals (fst (exec three_pulses 9 PowerOn)) = [3; 3; 3].
Proof.
  assert (W : well_typed three_pulses) by apply configure_well_typed.
  assert (K : (steps_of_program three_pulses <= 9)%nat) by (vm_compute; lia).
  split; [exact W | split; [exact K |]].
  exact (progress_numbers three_pulses 9 W K).
Defined.

(** ** Arguments of the runtime calls *)

Lemma uint8_id z : Avr.is_uint8 z -> Avr.uint8 z = z.
Proof. unfold Avr.is_uint8, Avr.uint8. intros H. now apply Z.mod_small. Qed.

Lemma timing_within_off_period cfg :
  well_typed cfg ->
  0 <= closedHold cfg <= VIBE_OFF_MS cfg /\
  0 <= reopenWait cfg <= VIBE_OFF_MS cfg.
Proof.
  intros Hty.
  pose proof (off_is_ulong cfg Hty) as Ho.
  pose proof (lead_is_ulong cfg Hty) as Hl.
  unfold Avr.is_ulong in Ho, Hl.
  destruct (Z_lt_le_dec (REOPEN_LEAD_MS cfg) (VIBE_OFF_MS cfg)) as [Hlt|Hle].
  - destruct (timing_held cfg Hty Hlt) as [-> ->]. lia.
  - destruct (timing_clamped cfg Hle) as [-> ->]. lia.
Qed.

(** One step from a control point whose counter is in bounds. *)
Lemma step_event_ok cfg s :
  well_typed cfg -> counter_ok cfg s ->
  Forall (event_ok cfg) (fst (step cfg s)).
Proof.
  intros Hty Hs.
  assert (Hint : Avr.is_int (PULSE_CYCLES cfg)) by apply Hty.
  unfold Avr.is_int in Hint.
  destruct (timing_within_off_period cfg Hty) as [Hhold Hwait].
  destruct s as [|c|c| |]; cbn [step fst counter_ok] in *.
  - unfold setup. repeat (apply Forall_cons); try apply Forall_nil;
      cbn [event_ok]; auto.
  - destruct (c <? PULSE_CYCLES cfg); apply Forall_nil.
  - unfold pulse. repeat (apply Forall_cons); try apply Forall_nil;
      cbn [event_ok]; auto.
    rewrite int_id by (unfold Avr.is_int; lia). lia.
  - unfold shutdown. repeat (apply Forall_cons); try apply Forall_nil;
      cbn [event_ok]; auto.
  - apply Forall_nil.
Qed.

Lemma exec_event_ok cfg k : forall s,
  well_typed cfg -> counter_ok cfg s ->
  Forall (event_ok cfg) (fst (exec cfg k s)).
Proof.
  induction k as [|k IH]; intros s Hty Hs; [constructor|].
  rewrite exec_S_fst. apply Forall_app. split.
  - now apply step_event_ok.
  - apply IH; [exact Hty | now apply step_counter_ok].
Qed.

(** X7.  Under a well-typed configuration, at any moment of the program
    every call made so far has the arguments the configuration intends:
    [analogWrite] goes to the motor pin only, with intensity 0 or
    [VIBE_PWM]; the servo is only sent one of the two configured angles; no
    [delay] other than the start-up delay and the on-period is longer than
    the off-period, so the computed hold has not wrapped; every pulse number
    printed lies between 1 and the pulse count, and every total printed is
    the pulse count. *)
Theorem calls_are_well_formed cfg (k : nat) :
  well_typed cfg ->
  Forall (event_ok cfg) (fst (exec cfg k PowerOn)).
Proof.
  intros Hty. apply exec_event_ok; [exact Hty | exact I].
Qed.

Lemma calls_are_well_formed_witness :
  well_typed long_lead /\
  Forall (event_ok long_lead) (fst (exec long_lead 9 PowerOn)).
Proof.
  assert (W : well_typed long_lead) by apply configure_well_typed.
  split; [exact W|].
  exact (calls_are_well_formed long_lead 9 W).
Defined.

(** X8.  The peripherals are set up before they are used: whenever the
    program commands the servo, the servo has been attached to its pin, and
    whenever it writes to the motor, the motor pin has been made an output. *)
Theorem peripherals_initialised_before_use cfg (k : nat) pre e post :
  fst (exec cfg k PowerOn) = pre ++ e :: post ->
  (forall deg, e = ServoWrite deg -> In (ServoAttach SERVO_PIN) pre) /\
  (forall pin value, e = AnalogWrite pin value ->
     In (PinMode BUZZER_PIN OUTPUT) pre).
Proof.
  intros Hsplit.
  destruct k as [|k].
  - cbn in Hsplit. now destruct pre.
  - rewrite exec_from_PowerOn in Hsplit. cbn [setup app] in Hsplit.
    split.
    + intros deg ->.
      destruct pre as [|a [|b pre]]; cbn [app] in Hsplit;
        try discriminate Hsplit.
      injection Hsplit as _ <- _. right. left. reflexivity.
    + intros pin value ->.
      destruct pre as [|a [|b [|c [|d pre]]]]; cbn [app] in Hsplit;
        try discriminate Hsplit.
      injection Hsplit as _ _ _ <- _. do 3 right. left. reflexivity.
Qed.

Lemma peripherals_initialised_before_use_witness :
  let pre :=
    [ SerialBegin 9600; ServoAttach 6; ServoWrite 123; PinMode 11 OUTPUT ] in
  let post :=
    [ Delay 11000;
      SerialPrintln
        "Dust injector initialized. Beginning pulse sequence..."%string ] in
  fst (exec three_pulses 1 PowerOn) = pre ++ AnalogWrite 11 0 :: post /\
  In (PinMode 11 OUTPUT) pre.
Proof.
  intros pre post.
  assert (E : fst (exec three_pulses 1 PowerOn) =
              pre ++ AnalogWrite 11 0 :: post) by reflexivity.
  split; [exact E|].
  exact (proj2 (peripherals_initialised_before_use
                  three_pulses 1 pre (AnalogWrite 11 0) post E) 11 0 eq_refl).
Defined.

(** ** Constants keep the values that fit *)

(** X9.  A constant whose initialiser fits its declared type keeps that
    value: building a configuration from the fields of a well-typed one gives
    it back unchanged, so conversion alters out-of-range initialisers only. *)
Theorem configure_keeps_fitting_values cfg :
  well_typed cfg ->
  configure (SERVO_OPEN_DEG cfg) (SERVO_CLOSE_DEG cfg) (VIBE_PWM cfg)
            (VIBE_ON_MS cfg) (VIBE_OFF_MS cfg) (PULSE_CYCLES cfg)
            (REOPEN_LEAD_MS cfg) = cfg.
Proof.
  intros (Hopen & Hclose & Hpwm & Hon & Hoff & Hcnt & Hlead).
  destruct cfg as [o c p on off n lead].
  cbn [SERVO_OPEN_DEG SERVO_CLOSE_DEG VIBE_PWM VIBE_ON_MS VIBE_OFF_MS
       PULSE_CYCLES REOPEN_LEAD_MS] in *.
  unfold configure.
  now rewrite !int_id, !ulong_id, uint8_id by assumption.
Qed.

Lemma configure_keeps_fitting_values_witness :
  well_typed (mkCycleConfig 123 130 255 500 1500 1100 250) /\
  configure 123 130 255 500 1500 1100 250 =
  mkCycleConfig 123 130 255 500 1500 1100 250.
Proof.
  assert (W : well_typed (mkCycleConfig 123 130 255 500 1500 1100 250)).
  { unfold well_typed, Avr.is_int, Avr.is_uint8, Avr.is_ulong.
    cbn [SERVO_OPEN_DEG SERVO_CLOSE_DEG VIBE_PWM VIBE_ON_MS VIBE_OFF_MS
         PULSE_CYCLES REOPEN_LEAD_MS].
    repeat split; lia. }
  split; [exact W|].
  exact (configure_keeps_fitting_values _ W).
Defined.
